(** * ndindex: index objects for nd-arrays

    A shallow embedding of [ndindex/ndindex.py]: the classes [NDIndex],
    [Slice] and [Integer], their constructors ([__new__]), [raw] and
    [__hash__], together with the Python built-ins the constructors call
    ([operator.index], [range], [len], tuple hashing, object identity) and
    the indexing semantics of an axis of length [n] against which the
    canonicalisation done by [Slice.__new__] is judged. *)

From Stdlib Require Import ZArith List Lia Bool Ascii String.
From Stdlib Require Import DecimalString DecimalZ.
Import ListNotations.
Open Scope Z_scope.

(** ** Python values, exceptions and the interpreter state *)

Inductive exn : Type :=
| ValueError (msg : string)
| TypeError
| IndexError
| OverflowError.

Inductive outcome (A : Type) : Type :=
| Ok (a : A)
| Raise (e : exn).
Arguments Ok {A} a.
Arguments Raise {A} e.

(** The values that reach the constructors.  [VInt] is a Python [int].
    [VIndexable z eq0] is an integer-like object whose [__index__] returns
    [z]; [VNoIndex eq0] is an object without [__index__] (a float, a
    string, an array).  For both, [eq0] is what testing [v == 0] in a
    condition gives: [True], [False], or an exception (as for an array of
    several elements).  The class of the object decides it, independently
    of [__index__]: a numpy integer compares as its value does, an object
    that defines only [__index__] compares unequal to [0] whatever it
    returns. *)
Inductive value : Type :=
| VNone
| VInt (z : Z)
| VIndexable (z : Z) (eq0 : outcome bool)
| VNoIndex (eq0 : outcome bool).

(** The error kinds of the specification. *)
Definition BadStep : exn := ValueError "slice step cannot be zero".
Definition BadIndex : exn := TypeError.

(** The part of the interpreter state the constructors touch: the next
    fresh object identity, and the log of the arguments [operator.index]
    has been called with. *)
Record world : Type := mkWorld {
  next_id : nat;
  coerced : list value
}.

Module PyMonad.

Definition Py (A : Type) : Type := world -> outcome A * world.

Definition ret {A} (a : A) : Py A := fun w => (Ok a, w).

Definition bind {A B} (m : Py A) (k : A -> Py B) : Py B :=
  fun w => match m w with
           | (Ok a, w') => k a w'
           | (Raise e, w') => (Raise e, w')
           end.

Definition raise {A} (e : exn) : Py A := fun w => (Raise e, w).

Definition result {A} (m : Py A) (w : world) : outcome A := fst (m w).
Definition final {A} (m : Py A) (w : world) : world := snd (m w).

Declare Scope py_scope.
Delimit Scope py_scope with py.
Notation "x <- m ;; k" := (bind m (fun x => k))
  (at level 100, m at next level, right associativity) : py_scope.

End PyMonad.
Import PyMonad.
Open Scope py_scope.

(** ** Built-ins *)

(** [x is None] *)
Definition is_None (v : value) : bool :=
  match v with VNone => true | _ => false end.

(** [x == 0], as a condition *)
Definition eq_zero (v : value) : outcome bool :=
  match v with
  | VNone => Ok false
  | VInt z => Ok (z =? 0)
  | VIndexable _ eq0 | VNoIndex eq0 => eq0
  end.

(** The same, as a step of the program. *)
Definition test_eq_zero (v : value) : Py bool :=
  fun w => (eq_zero v, w).

(** [operator.index(v)]: the integer [v.__index__()], or [TypeError]. *)
Definition index (v : value) : Py Z :=
  fun w =>
    let w' := mkWorld (next_id w) (coerced w ++ [v]) in
    match v with
    | VInt z | VIndexable z _ => (Ok z, w')
    | VNone | VNoIndex _ => (Raise TypeError, w')
    end.

(** [range(start, stop, step)] objects. *)
Record range_obj : Type := mkRange {
  r_start : Z;
  r_stop : Z;
  r_step : Z
}.

Definition range (start stop step : Z) : Py range_obj :=
  if step =? 0 then raise (ValueError "range() arg 3 must not be zero")
  else ret (mkRange start stop step).

(** The length a range object holds: an integer of any size. *)
Definition range_length (r : range_obj) : Z :=
  let (start, stop, step) := r in
  if 0 <? step then
    if start <? stop then 1 + (stop - 1 - start) / step else 0
  else
    if stop <? start then 1 + (start - 1 - stop) / (- step) else 0.

(** [sys.maxsize], on a 64-bit build. *)
Definition maxsize : Z := 2 ^ 63 - 1.

(** [len(r)]: the length, when it fits the index type. *)
Definition len (r : range_obj) : Py Z :=
  if maxsize <? range_length r then raise OverflowError
  else ret (range_length r).

(** [r[i]] *)
Definition getitem (r : range_obj) (i : Z) : Py Z :=
  let i' := if i <? 0 then i + range_length r else i in
  if (i' <? 0) || (range_length r <=? i') then raise IndexError
  else ret (r_start r + i' * r_step r).

(** The elements of a range, in order. *)
Definition elements (r : range_obj) : list Z :=
  map (fun k => r_start r + Z.of_nat k * r_step r)
      (seq 0 (Z.to_nat (range_length r))).

(** ** The classes *)

Inductive cls : Type := NDIndex | Slice | Integer.

(** An instance: its identity, its class and its [args] tuple, whose
    entries are integers or [None]. *)
Record object : Type := mkObject {
  oid : nat;
  class_of : cls;
  args : list (option Z)
}.

(** [NDIndex.__new__(cls, *args)]: [object.__new__(cls)] allocates a fresh
    instance, on which [args] is set. *)
Definition NDIndex_new (c : cls) (a : list (option Z)) : Py object :=
  fun w => (Ok (mkObject (next_id w) c a), mkWorld (S (next_id w)) (coerced w)).

(** [Integer.__new__(cls, idx)] *)
Definition Integer_new (idx : value) : Py object :=
  idx <- index idx ;;
  NDIndex_new Integer [Some idx].

(** [Integer.raw]: [self.args[0]] *)
Definition Integer_raw (self : object) : option (option Z) :=
  nth_error (args self) 0.

(** [start = index(start)] under [if start is not None] *)
Definition index_unless_None (v : value) : Py (option Z) :=
  if is_None v then ret None
  else (z <- index v ;; ret (Some z)).

(** [Slice.__new__(cls, start, stop=None, step=None)] *)
Definition Slice_new (start stop step : value) : Py object :=
  let step := if is_None step then VInt 1 else step in
  zero <- test_eq_zero step ;;
  if zero then raise (ValueError "slice step cannot be zero")
  else
    start <- index_unless_None start ;;
    stop <- index_unless_None stop ;;
    step <- index step ;;
    match start, stop with
    | Some a, Some b =>
        r <- range a b step ;;
        n <- len r ;;
        let '(start', stop', step') :=
          if (n =? 0) &&
             (((0 <? step) && (a <=? b)) || ((step <? 0) && (b <=? a)))
          then (Some 0, Some 0, 1)
          else (start, stop, step) in
        n <- len r ;;
        if n =? 1 then
          (r0 <- getitem r 0 ;; Integer_new (VInt r0))
        else
          NDIndex_new Slice [start'; stop'; Some step']
    | _, _ => NDIndex_new Slice [start; stop; Some step]
    end.

(** The call forms [Slice(start)] and [Slice(start, stop)]: the missing
    parameters take their default [None]. *)
Definition Slice_call1 (start : value) : Py object :=
  Slice_new start VNone VNone.
Definition Slice_call2 (start stop : value) : Py object :=
  Slice_new start stop VNone.

(** [Slice.raw]: [slice( *self.args )], the built-in slice with the same
    three fields. *)
Definition Slice_raw (self : object) : option (option Z * option Z * option Z) :=
  match args self with
  | [a; b; c] => Some (a, b, c)
  | _ => None
  end.

(** [a == b]: no class defines [__eq__], so [object.__eq__] decides, and
    that is identity. *)
Definition py_eq (a b : object) : bool := Nat.eqb (oid a) (oid b).

Section Hash.

(** The built-in [hash] on tuples of integers and [None]. *)
Variable hash_tuple : list (option Z) -> Z.

(** [NDIndex.__hash__] *)
Definition NDIndex_hash (self : object) : Z := hash_tuple (args self).

End Hash.

(** [type(self).__name__] *)
Definition cls_name (c : cls) : string :=
  match c with
  | NDIndex => "NDIndex"
  | Slice => "Slice"
  | Integer => "Integer"
  end.

(** [str(z)] for an [int]: its decimal numeral, with a leading [-] when
    negative. *)
Definition str_int (z : Z) : string := NilEmpty.string_of_int (Z.to_int z).

(** [str(x)] for an entry of [args]. *)
Definition py_str (x : option Z) : string :=
  match x with
  | None => "None"
  | Some z => str_int z
  end.

(** [sep.join(l)] *)
Definition join (sep : string) (l : list string) : string :=
  String.concat sep l.

(** [NDIndex.__repr__] *)
Definition NDIndex_repr (self : object) : string :=
  cls_name (class_of self) ++ "(" ++ join ", " (map py_str (args self)) ++ ")".

(** Back from a stored field to the value it is: [None] or an [int]. *)
Definition field_value (f : option Z) : value :=
  match f with None => VNone | Some z => VInt z end.

(** ** Indexing an axis of length [n]

    What an index selects from the positions [0 .. n-1] of an axis: the
    semantics of Python and numpy subscripting that the canonical forms
    are meant to preserve. *)

(** An integer index [i] is valid when [-n <= i < n] and selects the
    position [i], or [i + n] when [i] is negative; otherwise indexing
    fails (out of bounds). *)
Definition integer_position (n i : Z) : option Z :=
  if (- n <=? i) && (i <? n)
  then Some (if 0 <=? i then i else i + n)
  else None.

(** One endpoint of [slice.indices(n)]: a negative endpoint is counted
    from the end, then the endpoint is clamped. *)
Definition adjust_endpoint (n lower upper dflt : Z) (x : option Z) : Z :=
  match x with
  | None => dflt
  | Some v => if v <? 0 then Z.max (v + n) lower else Z.min v upper
  end.

(** [slice(start, stop, step).indices(n)] *)
Definition slice_indices (n : Z) (start stop : option Z) (step : Z) : range_obj :=
  let lower := if step <? 0 then -1 else 0 in
  let upper := if step <? 0 then n - 1 else n in
  mkRange
    (adjust_endpoint n lower upper (if step <? 0 then upper else lower) start)
    (adjust_endpoint n lower upper (if step <? 0 then lower else upper) stop)
    step.

(** The positions a raw slice selects, in order. *)
Definition slice_positions (n : Z) (start stop : option Z) (step : Z) : list Z :=
  elements (slice_indices n start stop step).

(** The interpreter state before anything was allocated or coerced. *)
Definition w0 : world := mkWorld 0 [].

(** ** Vocabulary of the statements *)

(** The integer [operator.index] gives, when it gives one. *)
Definition as_index (v : value) : option Z :=
  match v with
  | VInt z | VIndexable z _ => Some z
  | VNone | VNoIndex _ => None
  end.

(** The same for an endpoint, where [None] stays [None]. *)
Definition as_endpoint (v : value) : option (option Z) :=
  match v with
  | VNone => Some None
  | _ => option_map Some (as_index v)
  end.

(** The class and the [args] tuple [Slice.__new__] settles on, from the
    coerced endpoints and step, or the exception [range] or [len] raises. *)
Definition canonical (start stop : option Z) (step : Z)
  : outcome (cls * list (option Z)) :=
  match start, stop with
  | Some a, Some b =>
      let n := range_length (mkRange a b step) in
      if step =? 0 then Raise (ValueError "range() arg 3 must not be zero")
      else if maxsize <? n then Raise OverflowError
      else if n =? 1 then Ok (Integer, [Some a])
      else if (n =? 0) &&
              (((0 <? step) && (a <=? b)) || ((step <? 0) && (b <=? a)))
      then Ok (Slice, [Some 0; Some 0; Some 1])
      else Ok (Slice, [start; stop; Some step])
  | _, _ => Ok (Slice, [start; stop; Some step])
  end.

(** The object of identity [i] made from such a class and tuple. *)
Definition object_of (i : nat) (r : outcome (cls * list (option Z)))
  : outcome object :=
  match r with
  | Ok (c, t) => Ok (mkObject i c t)
  | Raise e => Raise e
  end.

(** The step after [if step is None: step = 1]. *)
Definition default_step (step : value) : value :=
  if is_None step then VInt 1 else step.

(** The values [Slice.__new__] passes to [operator.index] when none
    fails: the endpoints that are not [None], then the step. *)
Definition coercions (start stop step : value) : list value :=
  (if is_None start then [] else [start]) ++
  (if is_None stop then [] else [stop]) ++
  [default_step step].

(** A list of values up to the first that has no [__index__], inclusive. *)
Fixpoint until_failure (l : list value) : list value :=
  match l with
  | [] => []
  | v :: l' =>
      v :: match as_index v with
           | Some _ => until_failure l'
           | None => []
           end
  end.

(** What [Integer.__new__] coerces when [Slice.__new__] hands over to it:
    the integer the returned [Integer] holds. *)
Definition recoerced (r : outcome object) : list value :=
  match r with
  | Ok o =>
      match class_of o with
      | Integer => map field_value (args o)
      | _ => []
      end
  | Raise _ => []
  end.

(** The value compares with [0] as the integer [operator.index] gives
    for it does: so do [None], the integers and the numpy integers. *)
Definition compares_as_index (v : value) : Prop :=
  forall z, as_index v = Some z -> eq_zero v = Ok (z =? 0).

(** The character [c] does not occur in [s]. *)
Fixpoint free (c : ascii) (s : string) : bool :=
  match s with
  | EmptyString => true
  | String a s' => negb (Ascii.eqb a c) && free c s'
  end.

(** The sign of [d] agrees with the sign of [s] when [d] is zero or has
    the sign of [s]: the two do not point in opposite directions. *)
Definition signs_agree (d s : Z) : Prop :=
  Z.sgn d = 0 \/ Z.sgn d = Z.sgn s.

(** Both endpoints on the same side of zero: no wrap-around between them. *)
Definition same_side (a b : Z) : Prop :=
  (0 <= a /\ 0 <= b) \/ (a < 0 /\ b < 0).

(** ** Arithmetic of [range] *)

Lemma range_length_nonneg (r : range_obj) : 0 <= range_length r.
Proof.
  destruct r as [a b s]; unfold range_length.
  destruct (Z.ltb_spec 0 s).
  - destruct (Z.ltb_spec a b); [|lia].
    assert (0 <= (b - 1 - a) / s) by (apply Z.div_pos; lia). lia.
  - destruct (Z.ltb_spec b a); [|lia].
    destruct (Z.eq_dec s 0) as [->|].
    + simpl. rewrite Z.div_0_r. lia.
    + assert (0 <= (a - 1 - b) / (- s)) by (apply Z.div_pos; lia). lia.
Qed.

Lemma range_length_zero_iff (a b s : Z) :
  s <> 0 ->
  range_length (mkRange a b s) = 0 <-> (0 < s /\ b <= a) \/ (s < 0 /\ a <= b).
Proof.
  intros Hs; unfold range_length.
  destruct (Z.ltb_spec 0 s).
  - destruct (Z.ltb_spec a b).
    + assert (0 <= (b - 1 - a) / s) by (apply Z.div_pos; lia). lia.
    + lia.
  - destruct (Z.ltb_spec b a).
    + assert (0 <= (a - 1 - b) / (- s)) by (apply Z.div_pos; lia). lia.
    + lia.
Qed.

Lemma range_length_one_iff (a b s : Z) :
  s <> 0 ->
  range_length (mkRange a b s) = 1 <->
  (0 < s /\ a < b <= a + s) \/ (s < 0 /\ a + s <= b < a).
Proof.
  intros Hs; unfold range_length.
  destruct (Z.ltb_spec 0 s).
  - destruct (Z.ltb_spec a b); [|lia].
    split.
    + intros E. assert (E0 : (b - 1 - a) / s = 0) by lia.
      apply Z.div_small_iff in E0; lia.
    + intros [[_ Hb]|]; [|lia].
      rewrite Z.div_small; lia.
  - destruct (Z.ltb_spec b a); [|lia].
    split.
    + intros E. assert (E0 : (a - 1 - b) / (- s) = 0) by lia.
      apply Z.div_small_iff in E0; lia.
    + intros [|[_ Hb]]; [lia|].
      rewrite Z.div_small; lia.
Qed.

Lemma elements_one (r : range_obj) :
  range_length r = 1 -> elements r = [r_start r].
Proof.
  intros E; unfold elements; rewrite E; simpl.
  f_equal. lia.
Qed.

Lemma elements_zero (r : range_obj) : range_length r = 0 -> elements r = [].
Proof.
  intros E; unfold elements; rewrite E; reflexivity.
Qed.

(** The [k]-th element exists exactly when it lies before [stop] in the
    direction of [step]. *)
Lemma range_length_index (a b s k : Z) :
  s <> 0 -> 0 <= k ->
  k < range_length (mkRange a b s) <->
  (if 0 <? s then a + k * s < b else b < a + k * s).
Proof.
  intros Hs Hk. unfold range_length.
  destruct (Z.ltb_spec 0 s).
  - destruct (Z.ltb_spec a b).
    + pose proof (Z.mul_div_le (b - 1 - a) s ltac:(lia)).
      pose proof (Z.mul_succ_div_gt (b - 1 - a) s ltac:(lia)).
      split; intros; nia.
    + split; intros; nia.
  - destruct (Z.ltb_spec b a).
    + pose proof (Z.mul_div_le (a - 1 - b) (- s) ltac:(lia)).
      pose proof (Z.mul_succ_div_gt (a - 1 - b) (- s) ltac:(lia)).
      split; intros; nia.
    + split; intros; nia.
Qed.

(** The elements of a range are [start], [start + step], ... as long as
    they stay strictly before [stop] in the direction of [step]. *)
Lemma elements_spec (a b s x : Z) :
  s <> 0 ->
  In x (elements (mkRange a b s)) <->
  exists k, 0 <= k /\ x = a + k * s /\ (if 0 <? s then x < b else b < x).
Proof.
  intros Hs. unfold elements; cbn [r_start r_step].
  rewrite in_map_iff. split.
  - intros (k & <- & Hin). apply in_seq in Hin.
    exists (Z.of_nat k). split; [lia|]. split; [reflexivity|].
    apply range_length_index; [exact Hs|lia|lia].
  - intros (k & Hk & -> & Hlt).
    apply range_length_index in Hlt; [|exact Hs|exact Hk].
    exists (Z.to_nat k). split; [f_equal; lia|].
    apply in_seq. lia.
Qed.

(** Subscripting [0 .. 4] and [0 .. 1] as Python does. *)
Example positions_strided : slice_positions 5 (Some 0) (Some 5) 2 = [0; 2; 4].
Proof. reflexivity. Qed.

Example positions_reversed : slice_positions 2 None None (-1) = [1; 0].
Proof. reflexivity. Qed.

Example positions_wrapped : slice_positions 5 (Some (-3)) (Some 1) 1 = [].
Proof. reflexivity. Qed.

Example positions_from_end : slice_positions 5 (Some (-2)) None 1 = [3; 4].
Proof. reflexivity. Qed.

Example position_negative : integer_position 5 (-1) = Some 4.
Proof. reflexivity. Qed.

Example position_out_of_bounds : integer_position 5 5 = None.
Proof. reflexivity. Qed.

(** ** What the constructors return *)

Lemma bind_run {A B} (m : Py A) (k : A -> Py B) (w : world) :
  bind m k w =
  match m w with
  | (Ok a, w') => k a w'
  | (Raise e, w') => (Raise e, w')
  end.
Proof. reflexivity. Qed.

Lemma index_run (v : value) (w : world) :
  exists l,
    index v w =
    (match as_index v with Some z => Ok z | None => Raise BadIndex end,
     mkWorld (next_id w) l).
Proof. destruct v; eexists; reflexivity. Qed.

Lemma index_unless_None_run (v : value) (w : world) :
  exists l,
    index_unless_None v w =
    (match as_endpoint v with Some a => Ok a | None => Raise BadIndex end,
     mkWorld (next_id w) l).
Proof. destruct v, w; eexists; reflexivity. Qed.

(** The part of [Slice.__new__] after the coercions. *)
Lemma Slice_new_tail (start stop : option Z) (s : Z) (w : world) :
  exists w',
  match start, stop with
    | Some a, Some b =>
        r <- range a b s ;;
        n <- len r ;;
        let '(start', stop', step') :=
          if (n =? 0) &&
             (((0 <? s) && (a <=? b)) || ((s <? 0) && (b <=? a)))
          then (Some 0, Some 0, 1)
          else (start, stop, s) in
        n <- len r ;;
        if n =? 1 then
          (r0 <- getitem r 0 ;; Integer_new (VInt r0))
        else
          NDIndex_new Slice [start'; stop'; Some step']
    | _, _ => NDIndex_new Slice [start; stop; Some s]
  end w =
  (object_of (next_id w) (canonical start stop s), w') /\
  next_id w' =
  match canonical start stop s with
  | Ok _ => S (next_id w)
  | Raise _ => next_id w
  end.
Proof.
  unfold canonical.
  destruct start as [a|], stop as [b|];
    try (eexists; split; reflexivity).
  unfold bind, range, len, ret, raise.
  destruct (s =? 0).
  { eexists; split; reflexivity. }
  cbv zeta.
  destruct (maxsize <? range_length (mkRange a b s)).
  { eexists; split; reflexivity. }
  destruct (Z.eqb_spec (range_length (mkRange a b s)) 1) as [E1|N1].
  - unfold getitem, Integer_new, bind, index, NDIndex_new, ret.
    rewrite E1.
    destruct ((1 =? 0) && _); cbn; rewrite Z.add_0_r;
      eexists; split; reflexivity.
  - destruct ((range_length (mkRange a b s) =? 0) && _);
      eexists; split; reflexivity.
Qed.

(** What [Slice(start, stop, step)] does on any three values: the result,
    and the identity the next allocation will get. *)
Lemma Slice_new_run (start stop step : value) (w : world) :
  let st := if is_None step then VInt 1 else step in
  match eq_zero st with
  | Raise e => Slice_new start stop step w = (Raise e, w)
  | Ok true => Slice_new start stop step w = (Raise BadStep, w)
  | Ok false =>
    match as_endpoint start, as_endpoint stop, as_index st with
    | Some a, Some b, Some s =>
        result (Slice_new start stop step) w =
          object_of (next_id w) (canonical a b s) /\
        next_id (final (Slice_new start stop step) w) =
          match canonical a b s with
          | Ok _ => S (next_id w)
          | Raise _ => next_id w
          end
    | _, _, _ =>
        result (Slice_new start stop step) w = Raise BadIndex /\
        next_id (final (Slice_new start stop step) w) = next_id w
    end
  end.
Proof.
  intros st. unfold Slice_new. fold st.
  unfold test_eq_zero.
  destruct (eq_zero st) as [[|]|e]; [reflexivity| |reflexivity].
  unfold result, final. rewrite bind_run. cbv beta iota. rewrite bind_run.
  destruct (index_unless_None_run start w) as [l1 ->].
  destruct (as_endpoint start) as [a|]; [|split; reflexivity].
  rewrite bind_run.
  destruct (index_unless_None_run stop (mkWorld (next_id w) l1)) as [l2 ->].
  destruct (as_endpoint stop) as [b|]; [|split; reflexivity].
  rewrite bind_run. cbn [next_id].
  destruct (index_run st (mkWorld (next_id w) l2)) as [l3 ->].
  destruct (as_index st) as [s|]; [|split; reflexivity].
  destruct (Slice_new_tail a b s (mkWorld (next_id w) l3)) as (w' & E & N).
  cbn [next_id] in *.
  rewrite E. split; [reflexivity|exact N].
Qed.

(** [Slice] on the fields of an [args] tuple. *)
Lemma Slice_new_fields (a b : option Z) (s : Z) (w : world) :
  s <> 0 ->
  result (Slice_new (field_value a) (field_value b) (VInt s)) w =
  object_of (next_id w) (canonical a b s).
Proof.
  intros Hs.
  pose proof (Slice_new_run (field_value a) (field_value b) (VInt s) w) as R.
  cbv zeta in R. cbn [is_None eq_zero as_index] in R.
  destruct (Z.eqb_spec s 0); [contradiction|].
  replace (as_endpoint (field_value a)) with (Some a) in R
    by (destruct a; reflexivity).
  replace (as_endpoint (field_value b)) with (Some b) in R
    by (destruct b; reflexivity).
  apply R.
Qed.

(** [Slice(a, b, s)] on three integers, [s] nonzero. *)
Lemma Slice_new_explicit (a b s : Z) (w : world) :
  s <> 0 ->
  result (Slice_new (VInt a) (VInt b) (VInt s)) w =
  object_of (next_id w) (canonical (Some a) (Some b) s).
Proof. exact (Slice_new_fields (Some a) (Some b) s w). Qed.

(** A range of at most one element is within what [len] can return. *)
Lemma canonical_short (a b s : Z) :
  s <> 0 ->
  range_length (mkRange a b s) <= 1 ->
  canonical (Some a) (Some b) s =
  if range_length (mkRange a b s) =? 1 then Ok (Integer, [Some a])
  else if ((0 <? s) && (a <=? b)) || ((s <? 0) && (b <=? a))
  then Ok (Slice, [Some 0; Some 0; Some 1])
  else Ok (Slice, [Some a; Some b; Some s]).
Proof.
  intros Hs Hle. unfold canonical. cbv zeta.
  destruct (Z.eqb_spec s 0) as [|_]; [contradiction|].
  pose proof (range_length_nonneg (mkRange a b s)) as H0.
  destruct (Z.ltb_spec maxsize (range_length (mkRange a b s))) as [Hm|_].
  { unfold maxsize in Hm. lia. }
  destruct (Z.eqb_spec (range_length (mkRange a b s)) 1); [reflexivity|].
  destruct (Z.eqb_spec (range_length (mkRange a b s)) 0); [reflexivity|lia].
Qed.

(** The branches of [canonical] on two integers and a nonzero step. *)
Lemma canonical_explicit (a b s : Z) :
  s <> 0 ->
  canonical (Some a) (Some b) s =
  let n := range_length (mkRange a b s) in
  if maxsize <? n then Raise OverflowError
  else if n =? 1 then Ok (Integer, [Some a])
  else if (n =? 0) &&
          (((0 <? s) && (a <=? b)) || ((s <? 0) && (b <=? a)))
  then Ok (Slice, [Some 0; Some 0; Some 1])
  else Ok (Slice, [Some a; Some b; Some s]).
Proof.
  intros Hs. unfold canonical.
  destruct (Z.eqb_spec s 0) as [|_]; [contradiction|reflexivity].
Qed.

(** [Slice(a, a, s)]: the range is empty and the guard holds. *)
Lemma Slice_new_equal_endpoints (a s : Z) (w : world) :
  s <> 0 ->
  result (Slice_new (VInt a) (VInt a) (VInt s)) w =
  Ok (mkObject (next_id w) Slice [Some 0; Some 0; Some 1]).
Proof.
  intros Hs. rewrite Slice_new_explicit by exact Hs.
  assert (E : range_length (mkRange a a s) = 0)
    by (apply range_length_zero_iff; lia).
  rewrite (canonical_short a a s Hs) by lia. rewrite E; simpl.
  destruct (Z.ltb_spec 0 s), (Z.ltb_spec s 0), (Z.leb_spec a a);
    try lia; reflexivity.
Qed.

(** The canonical triple of a [Slice] is its own canonical triple. *)
Lemma canonical_idem (a b a' b' : option Z) (s s' : Z) :
  canonical a b s = Ok (Slice, [a'; b'; Some s']) ->
  canonical a' b' s' = Ok (Slice, [a'; b'; Some s']).
Proof.
  unfold canonical at 1.
  destruct a as [a|], b as [b|];
    try (intros E; injection E as <- <- <-; reflexivity).
  cbv zeta.
  destruct (s =? 0) eqn:Ez; [discriminate|].
  destruct (maxsize <? range_length (mkRange a b s)) eqn:Em; [discriminate|].
  destruct (range_length (mkRange a b s) =? 1) eqn:E1; [discriminate|].
  destruct (_ && _) eqn:E0; intros E; injection E as <- <- <-.
  - reflexivity.
  - unfold canonical. cbv zeta. rewrite Ez, Em, E1, E0. reflexivity.
Qed.

(** A [Slice] made from a nonzero step has a nonzero integer step. *)
Lemma canonical_Slice_step (a b : option Z) (s : Z) (t : list (option Z)) :
  s <> 0 ->
  canonical a b s = Ok (Slice, t) ->
  exists a' b' s', t = [a'; b'; Some s'] /\ s' <> 0.
Proof.
  intros Hs. unfold canonical.
  destruct a as [a|], b as [b|];
    try (intros E; injection E as <-; eauto 6).
  cbv zeta.
  destruct (s =? 0); [discriminate|].
  destruct (maxsize <? _); [discriminate|].
  destruct (_ =? 1); [discriminate|].
  destruct (_ && _); intros E; injection E as <-; eauto 6.
  exists (Some 0), (Some 0), 1. split; [reflexivity|lia].
Qed.

(** The [args] of a [Slice] are the coerced arguments or the empty form. *)
Lemma canonical_Slice_args (a b : option Z) (s : Z) (t : list (option Z)) :
  canonical a b s = Ok (Slice, t) ->
  t = [a; b; Some s] \/ t = [Some 0; Some 0; Some 1].
Proof.
  unfold canonical.
  destruct a as [a|], b as [b|];
    try (intros E; injection E as <-; left; reflexivity).
  cbv zeta.
  destruct (s =? 0); [discriminate|].
  destruct (maxsize <? _); [discriminate|].
  destruct (_ =? 1); [discriminate|].
  destruct (_ && _); intros E; injection E as <-; auto.
Qed.

(** A successful construction, read back: the coerced arguments, the
    class and [args] settled on, and the identity taken. *)
Lemma Slice_new_Ok (start stop step : value) (w : world) (o : object) :
  result (Slice_new start stop step) w = Ok o ->
  exists a b s,
    as_endpoint start = Some a /\
    as_endpoint stop = Some b /\
    as_index (default_step step) = Some s /\
    eq_zero (default_step step) = Ok false /\
    canonical a b s = Ok (class_of o, args o) /\
    oid o = next_id w /\
    next_id (final (Slice_new start stop step) w) = S (next_id w).
Proof.
  intros Hok. unfold default_step.
  pose proof (Slice_new_run start stop step w) as R; cbv zeta in R.
  destruct (eq_zero _) as [[|]|e];
    [unfold result in Hok; rewrite R in Hok; discriminate| |
     unfold result in Hok; rewrite R in Hok; discriminate].
  destruct (as_endpoint start) as [a|]; [|destruct R; congruence].
  destruct (as_endpoint stop) as [b|]; [|destruct R; congruence].
  destruct (as_index _) as [s|]; [|destruct R; congruence].
  destruct R as (Hr & Hn).
  rewrite Hr in Hok.
  exists a, b, s.
  destruct (canonical a b s) as [[c t]|e]; [|discriminate].
  injection Hok as <-. repeat split; assumption.
Qed.

(** ** Step handling *)

(** C5, on the code.  The step is compared with [0] before it is coerced.
    An integer-like step whose [__index__] returns [0] but which does not
    compare equal to [0] passes the test: with an absent endpoint the
    constructor returns a [Slice] whose step field is [0], and with two
    integer endpoints it reaches [range], which raises its own
    [ValueError] instead of BadStep. *)
Theorem Slice_step_zero_stored (a : Z) (w : world) :
  result (Slice_new VNone (VInt a) (VIndexable 0 (Ok false))) w =
    Ok (mkObject (next_id w) Slice [None; Some a; Some 0]) /\
  forall b,
    result (Slice_new (VInt a) (VInt b) (VIndexable 0 (Ok false))) w =
    Raise (ValueError "range() arg 3 must not be zero").
Proof. split; [reflexivity|]. intros b. reflexivity. Qed.

(** X16. An absent step is the step [1], and a [Slice] made without a
    step stores [1]; a step for which the test [step == 0] is true is
    refused with BadStep, whatever the endpoints are; and when the step
    compares with [0] as its integer value does (as [None], an [int] or a
    numpy integer does), a returned [Slice] has three fields the last of
    which is an integer different from [0]. *)
Theorem Slice_step_well_behaved :
  (forall start stop, Slice_new start stop VNone = Slice_new start stop (VInt 1)) /\
  (forall start stop w o,
      result (Slice_new start stop VNone) w = Ok o ->
      class_of o = Slice ->
      exists a b, args o = [a; b; Some 1]) /\
  (forall start stop step w,
      eq_zero step = Ok true ->
      result (Slice_new start stop step) w = Raise BadStep) /\
  (forall start stop step w o,
      compares_as_index (default_step step) ->
      result (Slice_new start stop step) w = Ok o ->
      class_of o = Slice ->
      exists a b s, args o = [a; b; Some s] /\ s <> 0).
Proof.
  split; [reflexivity|]. split; [|split].
  - intros start stop w o Hok Hcls.
    destruct (Slice_new_Ok start stop VNone w o Hok)
      as (a & b & s & _ & _ & Hs & _ & Hc & _).
    injection Hs as <-. rewrite Hcls in Hc.
    destruct (canonical_Slice_args a b 1 (args o) Hc) as [-> | ->]; eauto.
  - intros start stop step w Hz.
    pose proof (Slice_new_run start stop step w) as R; cbv zeta in R.
    destruct step; try discriminate Hz; cbn [is_None] in R;
      rewrite Hz in R; unfold result; rewrite R; reflexivity.
  - intros start stop step w o Hcmp Hok Hcls.
    destruct (Slice_new_Ok start stop step w o Hok)
      as (a & b & s & _ & _ & Hs & Hz & Hc & _).
    rewrite (Hcmp s Hs) in Hz. injection Hz as Hz.
    apply Z.eqb_neq in Hz. rewrite Hcls in Hc.
    exact (canonical_Slice_step a b s (args o) Hz Hc).
Qed.

Lemma Slice_step_well_behaved_witness :
  (exists a b, args (mkObject 0 Slice [None; Some 5; Some 1]) = [a; b; Some 1]) /\
  result (Slice_new (VInt 0) (VInt 5) (VNoIndex (Ok true))) w0 = Raise BadStep /\
  (exists a b s,
     args (mkObject 0 Slice [Some 0; Some 5; Some 2]) = [a; b; Some s] /\ s <> 0).
Proof.
  destruct Slice_step_well_behaved as (_ & H1 & Hz & H).
  split; [|split].
  - apply (H1 VNone (VInt 5) w0); reflexivity.
  - apply (Hz (VInt 0) (VInt 5) (VNoIndex (Ok true)) w0). reflexivity.
  - apply (H (VInt 0) (VInt 5) (VIndexable 2 (Ok false)) w0);
      try reflexivity.
    intros z Hzi. injection Hzi as <-. reflexivity.
Defined.

(** ** Empty slices *)

(** C10. With [start] equal to [stop] and any nonzero step, of either
    sign, the constructor returns the [Slice] with [args] [(0, 0, 1)]. *)
Theorem Slice_zero_width (a s : Z) (w : world) :
  s <> 0 ->
  result (Slice_new (VInt a) (VInt a) (VInt s)) w =
  Ok (mkObject (next_id w) Slice [Some 0; Some 0; Some 1]).
Proof. exact (Slice_new_equal_endpoints a s w). Qed.

Lemma Slice_zero_width_witness :
  result (Slice_new (VInt 2) (VInt 2) (VInt (-3))) w0 =
  Ok (mkObject 0 Slice [Some 0; Some 0; Some 1]).
Proof. apply (Slice_zero_width 2 (-3) w0). lia. Defined.

Lemma signs_agree_guard (a b s : Z) :
  s <> 0 ->
  signs_agree (b - a) s <->
  ((0 <? s) && (a <=? b)) || ((s <? 0) && (b <=? a)) = true.
Proof.
  intros Hs. unfold signs_agree.
  destruct (Z.ltb_spec 0 s), (Z.ltb_spec s 0), (Z.leb_spec a b),
    (Z.leb_spec b a); simpl; split; intros G; try lia; try discriminate.
Qed.

(** C3. For explicit integers [start], [stop] and a nonzero [step] whose
    range has length [0]: when the sign of [stop - start] agrees with the
    sign of [step] the constructed value is the [Slice] with [args]
    [(0, 0, 1)], and when the signs disagree it is the [Slice] with [args]
    [(start, stop, step)], the endpoints kept as they are. *)
Theorem Slice_degenerate_empty (a b s : Z) (w : world) :
  s <> 0 ->
  range_length (mkRange a b s) = 0 ->
  (signs_agree (b - a) s ->
   result (Slice_new (VInt a) (VInt b) (VInt s)) w =
   Ok (mkObject (next_id w) Slice [Some 0; Some 0; Some 1])) /\
  (~ signs_agree (b - a) s ->
   result (Slice_new (VInt a) (VInt b) (VInt s)) w =
   Ok (mkObject (next_id w) Slice [Some a; Some b; Some s])).
Proof.
  intros Hs E. rewrite Slice_new_explicit by exact Hs.
  rewrite canonical_short by lia. rewrite E.
  change (0 =? 1) with false; cbv iota.
  pose proof (signs_agree_guard a b s Hs) as G.
  destruct (_ || _).
  - split; [reflexivity|]. intros N; exfalso; apply N, G; reflexivity.
  - split; [|reflexivity]. intros A; apply G in A; discriminate.
Qed.

Lemma Slice_degenerate_empty_witness :
  (signs_agree (3 - 3) 2 ->
   result (Slice_new (VInt 3) (VInt 3) (VInt 2)) w0 =
   Ok (mkObject 0 Slice [Some 0; Some 0; Some 1])) /\
  (~ signs_agree (1 - 4) 2 ->
   result (Slice_new (VInt 4) (VInt 1) (VInt 2)) w0 =
   Ok (mkObject 0 Slice [Some 4; Some 1; Some 2])).
Proof.
  split.
  - apply (Slice_degenerate_empty 3 3 2 w0); [lia | reflexivity].
  - apply (Slice_degenerate_empty 4 1 2 w0); [lia | reflexivity].
Defined.

(** ** Integer *)



(** ** A single positional argument *)

(** C4, on the code.  [Slice(i)] binds [i] to the first parameter: the
    value constructed has [start = i] and [stop] absent, where
    [Slice(None, i, 1)] constructs the value with [start] absent and
    [stop = i]. *)
Theorem Slice_single_argument (i : Z) (w : world) :
  result (Slice_call1 (VInt i)) w =
    Ok (mkObject (next_id w) Slice [Some i; None; Some 1]) /\
  result (Slice_new VNone (VInt i) (VInt 1)) w =
    Ok (mkObject (next_id w) Slice [None; Some i; Some 1]).
Proof. split; reflexivity. Qed.

(** [Slice(1)] against [Slice(None, 1, 1)]. *)
Example Slice_one_is_start :
  exists o o',
    result (Slice_call1 (VInt 1)) w0 = Ok o /\
    result (Slice_new VNone (VInt 1) (VInt 1)) w0 = Ok o' /\
    Slice_raw o = Some (Some 1, None, Some 1) /\
    Slice_raw o' = Some (None, Some 1, Some 1) /\
    args o <> args o'.
Proof.
  do 2 eexists. repeat split; try reflexivity. discriminate.
Qed.

(** ** Equality and hashing *)

(** Two objects allocated one after the other have different identities. *)
Lemma NDIndex_new_fresh (c c' : cls) (a a' : list (option Z)) (w : world) :
  result (o1 <- NDIndex_new c a ;; o2 <- NDIndex_new c' a' ;; ret (py_eq o1 o2)) w
  = Ok false.
Proof.
  unfold result, bind, NDIndex_new, ret, py_eq; simpl.
  f_equal. apply Nat.eqb_neq. lia.
Qed.

(** C7, on the code.  [Slice(0, 5, 2) == Slice(0, 5, 2)] is [False]: the
    two constructions give the same class and the same [args], and the
    comparison is by identity. *)
Theorem Slice_eq_is_identity (w : world) :
  result (o1 <- Slice_new (VInt 0) (VInt 5) (VInt 2) ;;
          o2 <- Slice_new (VInt 0) (VInt 5) (VInt 2) ;;
          ret (py_eq o1 o2,
               (class_of o1, args o1),
               (class_of o2, args o2))) w
  = Ok (false,
        (Slice, [Some 0; Some 5; Some 2]),
        (Slice, [Some 0; Some 5; Some 2])).
Proof.
  unfold result, bind, ret, py_eq; simpl.
  do 3 f_equal. apply Nat.eqb_neq. lia.
Qed.

(** The same for any arguments: two successive constructions that both
    succeed give values of the same class with the same [args], which do
    not compare equal. *)
Lemma Slice_new_twice (start stop step : value) (w : world) (o1 o2 : object) :
  result (Slice_new start stop step) w = Ok o1 ->
  result (Slice_new start stop step) (final (Slice_new start stop step) w) = Ok o2 ->
  class_of o1 = class_of o2 /\ args o1 = args o2 /\ py_eq o1 o2 = false.
Proof.
  intros H1 H2.
  destruct (Slice_new_Ok _ _ _ _ _ H1) as (a & b & s & Ha & Hb & Hs & _ & C1 & I1 & N1).
  destruct (Slice_new_Ok _ _ _ _ _ H2) as (a' & b' & s' & Ha' & Hb' & Hs' & _ & C2 & I2 & _).
  rewrite Ha in Ha'; rewrite Hb in Hb'; rewrite Hs in Hs'.
  injection Ha' as <-; injection Hb' as <-; injection Hs' as <-.
  rewrite C1 in C2. injection C2 as Hc Hargs.
  repeat split; try assumption.
  unfold py_eq. apply Nat.eqb_neq. rewrite I1, I2, N1. lia.
Qed.

Section HashFacts.

Variable hash_tuple : list (option Z) -> Z.

(** C9. The hash of an index value is the hash of its [args] tuple, so
    two values with equal [args] hash alike whatever their classes. *)
Theorem NDIndex_hash_args (v : object) :
  NDIndex_hash hash_tuple v = hash_tuple (args v) /\
  (forall u, args u = args v ->
             NDIndex_hash hash_tuple u = NDIndex_hash hash_tuple v).
Proof.
  split; [reflexivity|].
  intros u E. unfold NDIndex_hash. rewrite E. reflexivity.
Qed.

End HashFacts.

Lemma NDIndex_hash_args_witness :
  class_of (mkObject 0 Integer [Some 4]) <> class_of (mkObject 1 NDIndex [Some 4]) /\
  NDIndex_hash (fun t => Z.of_nat (List.length t)) (mkObject 1 NDIndex [Some 4]) =
  NDIndex_hash (fun t => Z.of_nat (List.length t)) (mkObject 0 Integer [Some 4]).
Proof.
  split; [discriminate|].
  destruct (NDIndex_hash_args (fun t => Z.of_nat (List.length t))
              (mkObject 0 Integer [Some 4])) as [_ H].
  apply H. reflexivity.
Defined.

(** ** Re-running the constructor *)

(** C8, on the code.  [Slice(None, a, x)], with [x] an integer-like whose
    [__index__] returns [0] and which does not compare equal to [0], is a
    returned [Slice] with [args] [(None, a, 0)]; the constructor run again
    on these three fields fails with BadStep. *)
Theorem Slice_rerun_zero_step (a : Z) (w w' : world) :
  result (Slice_new VNone (VInt a) (VIndexable 0 (Ok false))) w =
    Ok (mkObject (next_id w) Slice [None; Some a; Some 0]) /\
  result (Slice_new (field_value None) (field_value (Some a))
                    (field_value (Some 0))) w' =
    Raise BadStep.
Proof. split; reflexivity. Qed.

(** X17. When the constructor returns a [Slice] whose stored step is
    not [0], running it again on the three fields of that value's [args]
    returns a [Slice] with the same [args]. *)
Theorem Slice_new_idempotent_nonzero
  (start stop step : value) (w : world) (o : object)
  (a b : option Z) (s : Z) :
  result (Slice_new start stop step) w = Ok o ->
  class_of o = Slice ->
  args o = [a; b; Some s] ->
  s <> 0 ->
  forall w',
    result (Slice_new (field_value a) (field_value b) (field_value (Some s))) w' =
    Ok (mkObject (next_id w') Slice (args o)).
Proof.
  intros Hok Hcls Hargs Hs w'.
  destruct (Slice_new_Ok start stop step w o Hok)
    as (a0 & b0 & s0 & _ & _ & _ & _ & Hc & _).
  rewrite Hcls, Hargs in Hc.
  cbn [field_value]. rewrite Slice_new_fields by exact Hs.
  rewrite (canonical_idem _ _ _ _ _ _ Hc). rewrite Hargs. reflexivity.
Qed.

Lemma Slice_new_idempotent_nonzero_witness :
  result (Slice_new (field_value (Some 4)) (field_value (Some 1))
                    (field_value (Some 2))) w0 =
  Ok (mkObject (next_id w0) Slice
        (args (mkObject 0 Slice [Some 4; Some 1; Some 2]))).
Proof.
  apply (Slice_new_idempotent_nonzero (VInt 4) (VInt 1) (VIndexable 2 (Ok false)) w0
           (mkObject 0 Slice [Some 4; Some 1; Some 2]) (Some 4) (Some 1) 2);
    try reflexivity. lia.
Defined.

(** ** The canonical forms against indexing *)

(** A slice whose range has one element, with both endpoints on the same
    side of zero, selects from an axis the position its start selects
    there, whenever the start is within bounds. *)
Lemma one_element_slice_position (a b s n p : Z) :
  s <> 0 ->
  range_length (mkRange a b s) = 1 ->
  same_side a b ->
  integer_position n a = Some p ->
  slice_positions n (Some a) (Some b) s = [p].
Proof.
  intros Hs L Hside Hp.
  apply range_length_one_iff in L; [|exact Hs].
  unfold integer_position in Hp.
  destruct (Z.leb_spec (- n) a), (Z.ltb_spec a n); try discriminate.
  cbn [andb] in Hp.
  unfold slice_positions.
  assert (E : range_length (slice_indices n (Some a) (Some b) s) = 1 /\
              r_start (slice_indices n (Some a) (Some b) s) = p).
  { unfold slice_indices, adjust_endpoint, same_side in *.
    split.
    - apply range_length_one_iff; [exact Hs|].
      destruct (Z.ltb_spec s 0), (Z.ltb_spec a 0), (Z.ltb_spec b 0); lia.
    - cbn [r_start].
      destruct (Z.leb_spec 0 a); injection Hp as <-;
        destruct (Z.ltb_spec s 0), (Z.ltb_spec a 0); lia. }
  destruct E as [E1 E2].
  rewrite elements_one by exact E1. rewrite E2. reflexivity.
Qed.

(** C1, amended.  When [Slice(start, stop, step)] on explicit integers
    returns an [Integer] of value [v], and [start] and [stop] are on the
    same side of zero, then on every axis length [n] where [v] is within
    bounds, selecting the position [p], the raw slice selects exactly
    [p]. *)
Theorem Slice_to_Integer_sound
  (a b s : Z) (w : world) (o : object) (v n p : Z) :
  result (Slice_new (VInt a) (VInt b) (VInt s)) w = Ok o ->
  class_of o = Integer ->
  Integer_raw o = Some (Some v) ->
  same_side a b ->
  0 <= n ->
  integer_position n v = Some p ->
  slice_positions n (Some a) (Some b) s = [p].
Proof.
  intros Hok Hcls Hraw Hside _ Hp.
  assert (Hs : s <> 0).
  { intros ->. discriminate Hok. }
  rewrite Slice_new_explicit in Hok by exact Hs.
  rewrite canonical_explicit in Hok by exact Hs; cbv zeta in Hok.
  destruct (maxsize <? _); [discriminate|].
  destruct (Z.eqb_spec (range_length (mkRange a b s)) 1) as [L|_].
  - injection Hok as <-. injection Hraw as <-.
    exact (one_element_slice_position a b s n p Hs L Hside Hp).
  - destruct (_ && _); injection Hok as <-; discriminate.
Qed.

Lemma Slice_to_Integer_sound_witness :
  slice_positions 10 (Some (-3)) (Some (-1)) 5 = [7].
Proof.
  apply (Slice_to_Integer_sound (-3) (-1) 5 w0
           (mkObject 0 Integer [Some (-3)]) (-3) 10 7);
    try reflexivity; unfold same_side; lia.
Defined.

(** C1, as stated, fails.  [Slice(0, 1, 1)] is the [Integer] [0], yet on
    the axis of length [0] the raw slice selects nothing (and the integer
    is out of bounds); [Slice(-1, 0, 1)] is the [Integer] [-1], which on
    an axis of length [3] selects position [2], where the raw slice
    selects nothing. *)
Lemma Slice_to_Integer_unsound :
  (result (Slice_new (VInt 0) (VInt 1) (VInt 1)) w0
     = Ok (mkObject 0 Integer [Some 0]) /\
   slice_positions 0 (Some 0) (Some 1) 1 = [] /\
   integer_position 0 0 = None) /\
  (result (Slice_new (VInt (-1)) (VInt 0) (VInt 1)) w0
     = Ok (mkObject 0 Integer [Some (-1)]) /\
   slice_positions 3 (Some (-1)) (Some 0) 1 = [] /\
   integer_position 3 (-1) = Some 2).
Proof. repeat split; reflexivity. Qed.

(** A slice with equal endpoints selects nothing, on any axis. *)
Lemma equal_endpoints_select_nothing (a s n : Z) :
  s <> 0 -> slice_positions n (Some a) (Some a) s = [].
Proof.
  intros Hs. unfold slice_positions. apply elements_zero.
  unfold slice_indices, adjust_endpoint.
  apply range_length_zero_iff; [exact Hs|]. lia.
Qed.

(** C2, amended.  On explicit integers with a nonzero step, the
    constructor returns the [Slice] with [args] [(0, 0, 1)] exactly when
    [start] equals [stop]; those triples select the empty set of
    positions on every axis length. *)
Theorem Slice_canonical_empty (a b s : Z) (w : world) :
  s <> 0 ->
  (result (Slice_new (VInt a) (VInt b) (VInt s)) w =
     Ok (mkObject (next_id w) Slice [Some 0; Some 0; Some 1])
   <-> a = b) /\
  (a = b ->
   forall n, 0 <= n -> slice_positions n (Some a) (Some b) s = []).
Proof.
  intros Hs. split.
  - split.
    + rewrite Slice_new_explicit by exact Hs.
      rewrite canonical_explicit by exact Hs; cbv zeta.
      destruct (maxsize <? _); [discriminate|].
      destruct (range_length (mkRange a b s) =? 1); [discriminate|].
      destruct (Z.eqb_spec (range_length (mkRange a b s)) 0) as [L|_];
        cbn [andb].
      * apply range_length_zero_iff in L; [|exact Hs].
        destruct (Z.ltb_spec 0 s), (Z.ltb_spec s 0), (Z.leb_spec a b),
          (Z.leb_spec b a); cbn [andb orb object_of]; intros E; try lia;
          injection E; lia.
      * cbn [object_of]. intros E; injection E; lia.
    + intros <-. exact (Slice_new_equal_endpoints a s w Hs).
  - intros <- n _. exact (equal_endpoints_select_nothing a s n Hs).
Qed.

Lemma Slice_canonical_empty_witness :
  (result (Slice_new (VInt 3) (VInt 3) (VInt (-2))) w0 =
     Ok (mkObject (next_id w0) Slice [Some 0; Some 0; Some 1])
   <-> 3 = 3) /\
  (3 = 3 ->
   forall n, 0 <= n -> slice_positions n (Some 3) (Some 3) (-2) = []).
Proof. apply (Slice_canonical_empty 3 3 (-2) w0). lia. Defined.

(** C2, as stated, fails.  [slice(2, 1, 1)] selects no position on any
    axis, and [Slice(2, 1, 1)] keeps [args] [(2, 1, 1)]. *)
Lemma Slice_empty_not_canonical :
  result (Slice_new (VInt 2) (VInt 1) (VInt 1)) w0
    = Ok (mkObject 0 Slice [Some 2; Some 1; Some 1]) /\
  (forall n, 0 <= n -> slice_positions n (Some 2) (Some 1) 1 = []).
Proof.
  split; [reflexivity|].
  intros n Hn. unfold slice_positions. apply elements_zero.
  unfold slice_indices, adjust_endpoint; cbn [Z.ltb Z.compare].
  apply range_length_zero_iff; lia.
Qed.

(** ** Printing *)

Lemma append_empty_r (s : string) : (s ++ "")%string = s.
Proof. induction s; simpl; congruence. Qed.

Lemma free_append (c : ascii) (s t : string) :
  free c (s ++ t) = free c s && free c t.
Proof.
  induction s as [|a s IH]; simpl; [reflexivity|].
  rewrite IH. apply andb_assoc.
Qed.

(** Two strings free of [c], each followed by [c], are cut at the same
    place. *)
Lemma split_at (c : ascii) (u v r1 r2 : string) :
  free c u = true -> free c v = true ->
  (u ++ String c r1)%string = (v ++ String c r2)%string ->
  u = v /\ r1 = r2.
Proof.
  revert v. induction u as [|a u IH]; intros [|b v] Hu Hv H; simpl in *.
  - injection H as ->. split; reflexivity.
  - injection H as <- _. rewrite Ascii.eqb_refl in Hv. discriminate.
  - injection H as -> _. rewrite Ascii.eqb_refl in Hu. discriminate.
  - injection H as -> H.
    apply andb_true_iff in Hu as [_ Hu]. apply andb_true_iff in Hv as [_ Hv].
    destruct (IH v Hu Hv H) as [-> ->]. split; reflexivity.
Qed.

Lemma free_uint (c : ascii) (d : Decimal.uint) :
  free c "0123456789" = true ->
  free c (NilEmpty.string_of_uint d) = true.
Proof.
  intros Hc. simpl in Hc.
  repeat (apply andb_true_iff in Hc as [? Hc]).
  induction d; simpl; try reflexivity;
    apply andb_true_iff; split; assumption.
Qed.

(** The characters of [str(x)] are digits, [-] and the letters of
    [None]. *)
Lemma free_py_str (c : ascii) (x : option Z) :
  free c "0123456789-None" = true -> free c (py_str x) = true.
Proof.
  intros Hc.
  assert (Hd : free c "0123456789" = true).
  { change "0123456789-None"%string with ("0123456789" ++ "-None")%string in Hc.
    rewrite free_append in Hc. apply andb_true_iff in Hc as [Hd _]. exact Hd. }
  destruct x as [z|]; simpl.
  - unfold str_int. destruct (Z.to_int z) as [d|d]; simpl.
    + apply free_uint, Hd.
    + rewrite (free_uint c d Hd), andb_true_r.
      simpl in Hc. repeat (apply andb_true_iff in Hc as [? Hc]). assumption.
  - simpl in Hc. repeat (apply andb_true_iff in Hc as [? Hc]).
    repeat (apply andb_true_iff; split; try assumption); try reflexivity.
Qed.

Lemma free_join (c : ascii) (l : list (option Z)) :
  free c "0123456789-None, " = true ->
  free c (join ", " (map py_str l)) = true.
Proof.
  intros Hc.
  change "0123456789-None, "%string with ("0123456789-None" ++ ", ")%string in Hc.
  rewrite free_append in Hc. apply andb_true_iff in Hc as [He Hs].
  induction l as [|x [|y l] IH]; [reflexivity| |].
  - simpl. apply free_py_str, He.
  - change (join ", " (map py_str (x :: y :: l)))
      with (py_str x ++ ", " ++ join ", " (map py_str (y :: l)))%string.
    rewrite !free_append, IH, Hs, (free_py_str c x He). reflexivity.
Qed.

Lemma str_int_inj (z z' : Z) : str_int z = str_int z' -> z = z'.
Proof.
  unfold str_int. intros H.
  apply (f_equal NilEmpty.int_of_string) in H.
  rewrite !NilEmpty.isi in H. injection H as H.
  apply DecimalZ.to_int_inj, H.
Qed.

Lemma str_int_not_None (z : Z) : str_int z <> "None"%string.
Proof.
  unfold str_int. intros H.
  apply (f_equal NilEmpty.int_of_string) in H.
  rewrite NilEmpty.isi in H. discriminate.
Qed.

Lemma py_str_inj (x y : option Z) : py_str x = py_str y -> x = y.
Proof.
  destruct x as [z|], y as [z'|]; simpl; intros H.
  - f_equal. apply str_int_inj, H.
  - exfalso. exact (str_int_not_None z H).
  - exfalso. symmetry in H. exact (str_int_not_None z' H).
  - reflexivity.
Qed.

Lemma py_str_nonempty (x : option Z) : py_str x <> ""%string.
Proof.
  destruct x as [z|]; simpl; [|discriminate].
  unfold str_int. intros H.
  apply (f_equal NilEmpty.int_of_string) in H.
  rewrite NilEmpty.isi in H. simpl in H.
  injection H as H.
  pose proof (f_equal Z.of_int H) as H'.
  rewrite DecimalZ.of_to in H'. simpl in H'. subst z. discriminate H.
Qed.

Lemma join_py_str_inj (l1 l2 : list (option Z)) :
  join ", " (map py_str l1) = join ", " (map py_str l2) -> l1 = l2.
Proof.
  assert (Hc : forall x, free "," (py_str x) = true)
    by (intros x; apply free_py_str; reflexivity).
  assert (step : forall x y l,
             join ", " (map py_str (x :: y :: l)) =
             (py_str x ++ String "," (String " " (join ", " (map py_str (y :: l)))))%string)
    by reflexivity.
  revert l2. induction l1 as [|x [|x' l1] IH]; intros [|y [|y' l2]] H;
    try reflexivity; rewrite ?step in H.
  - exfalso. simpl in H. symmetry in H. exact (py_str_nonempty y H).
  - exfalso. simpl join in H at 1. 
    apply (f_equal String.length) in H. simpl in H.
    destruct (py_str y); discriminate.
  - exfalso. simpl in H. exact (py_str_nonempty x H).
  - simpl in H. f_equal. apply py_str_inj, H.
  - exfalso. simpl join in H at 1.
    apply (f_equal (free ",")) in H.
    rewrite free_append, !Hc in H. simpl in H. discriminate.
  - exfalso.
    apply (f_equal String.length) in H. simpl in H.
    destruct (py_str x); discriminate.
  - exfalso. simpl join in H at 2.
    apply (f_equal (free ",")) in H.
    rewrite free_append, !Hc in H. simpl in H. discriminate.
  - apply split_at in H; [|apply Hc|apply Hc].
    destruct H as [Hx Hr]. injection Hr as Hr.
    apply py_str_inj in Hx. pose proof (IH (y' :: l2) Hr). congruence.
Qed.

(** X1. The printed form determines the value: two objects with the same
    [repr] have the same class and the same [args]. *)
Theorem NDIndex_repr_inj (o1 o2 : object) :
  NDIndex_repr o1 = NDIndex_repr o2 ->
  class_of o1 = class_of o2 /\ args o1 = args o2.
Proof.
  unfold NDIndex_repr. intros H.
  assert (Hp : forall l, free ")" (join ", " (map py_str l)) = true)
    by (intros l; apply free_join; reflexivity).
  destruct (class_of o1), (class_of o2); simpl in H; try discriminate.
  all: injection H as H.
  all: destruct (split_at ")" _ _ _ _ (Hp (args o1)) (Hp (args o2)) H) as [E _];
    apply join_py_str_inj in E;
    split; [reflexivity|exact E].
Qed.

Lemma NDIndex_repr_inj_witness :
  class_of (mkObject 0 Slice [Some 0; None; Some (-2)]) =
    class_of (mkObject 1 Slice [Some 0; None; Some (-2)]) /\
  args (mkObject 0 Slice [Some 0; None; Some (-2)]) =
    args (mkObject 1 Slice [Some 0; None; Some (-2)]).
Proof.
  apply (NDIndex_repr_inj (mkObject 0 Slice [Some 0; None; Some (-2)])
                          (mkObject 1 Slice [Some 0; None; Some (-2)])).
  reflexivity.
Defined.

(** Printed forms, as Python gives them. *)
Example repr_Slice :
  NDIndex_repr (mkObject 0 Slice [Some 0; None; Some (-12)]) = "Slice(0, None, -12)"%string.
Proof. reflexivity. Qed.

Example repr_Integer :
  NDIndex_repr (mkObject 0 Integer [Some 7]) = "Integer(7)"%string.
Proof. reflexivity. Qed.

(** ** Failures of the constructor *)






(** X4. Two integers further apart than [sys.maxsize] steps cannot be
    made into a [Slice]: [len(r)] raises [OverflowError]. *)
Theorem Slice_new_Overflow (a b s : Z) (w : world) :
  s <> 0 ->
  maxsize < range_length (mkRange a b s) ->
  result (Slice_new (VInt a) (VInt b) (VInt s)) w = Raise OverflowError.
Proof.
  intros Hs Hm. rewrite Slice_new_explicit by exact Hs.
  rewrite canonical_explicit by exact Hs; cbv zeta.
  destruct (Z.ltb_spec maxsize (range_length (mkRange a b s))); [reflexivity|lia].
Qed.

Lemma Slice_new_Overflow_witness :
  result (Slice_new (VInt 0) (VInt (2 ^ 63)) (VInt 1)) w0 = Raise OverflowError.
Proof.
  apply (Slice_new_Overflow 0 (2 ^ 63) 1 w0); [lia|reflexivity].
Defined.

(** X5. A successful construction allocates exactly one object, the
    value it returns, also when that value is made by [Integer.__new__];
    a failed construction allocates none. *)
Theorem Slice_new_allocates (start stop step : value) (w : world) :
  (forall o, result (Slice_new start stop step) w = Ok o ->
             oid o = next_id w /\
             next_id (final (Slice_new start stop step) w) = S (next_id w)) /\
  (forall e, result (Slice_new start stop step) w = Raise e ->
             next_id (final (Slice_new start stop step) w) = next_id w).
Proof.
  split.
  - intros o Hok.
    destruct (Slice_new_Ok start stop step w o Hok)
      as (_ & _ & _ & _ & _ & _ & _ & _ & H1 & H2).
    split; assumption.
  - intros e Hr.
    pose proof (Slice_new_run start stop step w) as R; cbv zeta in R.
    destruct (eq_zero _) as [[|]|e0];
      [unfold final; rewrite R; reflexivity| |
       unfold final; rewrite R; reflexivity].
    destruct (as_endpoint start) as [a|]; [|apply R].
    destruct (as_endpoint stop) as [b|]; [|apply R].
    destruct (as_index _) as [s|]; [|apply R].
    destruct R as (R & N). rewrite R in Hr. rewrite N.
    destruct (canonical a b s) as [[c t]|e']; [discriminate|reflexivity].
Qed.

Lemma Slice_new_allocates_witness :
  oid (mkObject 0 Integer [Some 0]) = next_id w0 /\
  next_id (final (Slice_new (VInt 0) (VInt 1) VNone) w0) = S (next_id w0).
Proof.
  destruct (Slice_new_allocates (VInt 0) (VInt 1) VNone w0) as [H _].
  apply H. reflexivity.
Defined.

(** ** Which form the constructor returns *)

(** X6. On explicit integers with a nonzero step, [Slice] returns an
    [Integer] exactly when [stop] is past [start] by at most one step, in
    the direction of the step; the [Integer] is [start]. *)
Theorem Slice_new_Integer_iff (a b s : Z) (w : world) :
  s <> 0 ->
  ((exists o, result (Slice_new (VInt a) (VInt b) (VInt s)) w = Ok o /\
              class_of o = Integer)
   <-> (0 < s /\ a < b <= a + s) \/ (s < 0 /\ a + s <= b < a)) /\
  (forall o, result (Slice_new (VInt a) (VInt b) (VInt s)) w = Ok o ->
             class_of o = Integer ->
             Integer_raw o = Some (Some a)).
Proof.
  intros Hs. rewrite Slice_new_explicit by exact Hs.
  rewrite <- (range_length_one_iff a b s Hs).
  rewrite canonical_explicit by exact Hs; cbv zeta.
  pose proof (range_length_nonneg (mkRange a b s)) as H0.
  destruct (Z.ltb_spec maxsize (range_length (mkRange a b s))) as [Hm|_].
  { unfold maxsize in Hm. split.
    - split; [intros (o & H & _); discriminate H | lia].
    - intros o H; discriminate H. }
  destruct (Z.eqb_spec (range_length (mkRange a b s)) 1) as [L|N].
  - split.
    + split; [intros _; exact L | intros _; eexists; split; reflexivity].
    + intros o H _. injection H as <-. reflexivity.
  - split.
    + split; [|contradiction].
      intros (o & H & Hc). destruct (_ && _); injection H as <-; discriminate.
    + intros o H Hc. destruct (_ && _); injection H as <-; discriminate.
Qed.

Lemma Slice_new_Integer_iff_witness :
  ((exists o, result (Slice_new (VInt 7) (VInt 4) (VInt (-3))) w0 = Ok o /\
              class_of o = Integer)
   <-> (0 < -3 /\ 7 < 4 <= 7 + -3) \/ (-3 < 0 /\ 7 + -3 <= 4 < 7)) /\
  (forall o, result (Slice_new (VInt 7) (VInt 4) (VInt (-3))) w0 = Ok o ->
             class_of o = Integer ->
             Integer_raw o = Some (Some 7)).
Proof. apply (Slice_new_Integer_iff 7 4 (-3) w0). lia. Defined.

(** X7. With [start] or [stop] absent and a step that does not compare
    equal to [0], the arguments are kept as coerced: the result is a
    [Slice] with exactly those fields, never an [Integer] and never the
    empty form. *)
Theorem Slice_new_absent_endpoint
  (start stop step : value) (a b : option Z) (s : Z) (w : world) :
  as_endpoint start = Some a ->
  as_endpoint stop = Some b ->
  a = None \/ b = None ->
  as_index (default_step step) = Some s ->
  eq_zero (default_step step) = Ok false ->
  result (Slice_new start stop step) w =
  Ok (mkObject (next_id w) Slice [a; b; Some s]).
Proof.
  unfold default_step. intros Ha Hb Hnone Hst Hz.
  pose proof (Slice_new_run start stop step w) as R; cbv zeta in R.
  rewrite Ha, Hb, Hst, Hz in R.
  destruct R as (R & _). rewrite R.
  destruct Hnone as [-> | ->]; [|destruct a]; reflexivity.
Qed.

Lemma Slice_new_absent_endpoint_witness :
  result (Slice_new VNone (VInt 0) VNone) w0 =
  Ok (mkObject (next_id w0) Slice [None; Some 0; Some 1]).
Proof.
  apply (Slice_new_absent_endpoint VNone (VInt 0) VNone None (Some 0) 1 w0);
    try reflexivity. left; reflexivity.
Defined.

(** X8. On explicit integers whose range has at least two elements (and
    at most [sys.maxsize]), the three arguments are stored unchanged. *)
Theorem Slice_new_long_range (a b s : Z) (w : world) :
  s <> 0 ->
  2 <= range_length (mkRange a b s) <= maxsize ->
  result (Slice_new (VInt a) (VInt b) (VInt s)) w =
  Ok (mkObject (next_id w) Slice [Some a; Some b; Some s]).
Proof.
  intros Hs [H2 Hm]. rewrite Slice_new_explicit by exact Hs.
  rewrite canonical_explicit by exact Hs; cbv zeta.
  destruct (Z.ltb_spec maxsize (range_length (mkRange a b s))); [lia|].
  destruct (Z.eqb_spec (range_length (mkRange a b s)) 1); [lia|].
  destruct (Z.eqb_spec (range_length (mkRange a b s)) 0); [lia|].
  reflexivity.
Qed.

Lemma Slice_new_long_range_witness :
  result (Slice_new (VInt (-3)) (VInt 1) (VInt 1)) w0 =
  Ok (mkObject (next_id w0) Slice [Some (-3); Some 1; Some 1]).
Proof.
  apply (Slice_new_long_range (-3) 1 1 w0); [lia|].
  split; [|unfold maxsize]; vm_compute; discriminate.
Defined.

(** X9. What every returned [Slice] with two explicit endpoints
    satisfies: its range does not have exactly one element and is no
    longer than [sys.maxsize], and if its endpoints are equal it is the
    empty form [(0, 0, 1)]. *)
Theorem Slice_new_invariant
  (start stop step : value) (w : world) (o : object) (a b s : Z) :
  result (Slice_new start stop step) w = Ok o ->
  class_of o = Slice ->
  args o = [Some a; Some b; Some s] ->
  range_length (mkRange a b s) <> 1 /\
  range_length (mkRange a b s) <= maxsize /\
  (a = b -> a = 0 /\ s = 1).
Proof.
  intros Hok Hcls Hargs.
  destruct (Slice_new_Ok start stop step w o Hok)
    as (a0 & b0 & s0 & _ & _ & _ & _ & Hc & _).
  rewrite Hcls, Hargs in Hc.
  unfold canonical in Hc.
  destruct a0 as [a0|], b0 as [b0|]; try discriminate Hc.
  cbv zeta in Hc.
  destruct (Z.eqb_spec s0 0) as [|Hs]; [discriminate|].
  destruct (Z.ltb_spec maxsize (range_length (mkRange a0 b0 s0))) as [|Hm];
    [discriminate|].
  destruct (Z.eqb_spec (range_length (mkRange a0 b0 s0)) 1) as [|N1];
    [discriminate|].
  destruct (Z.eqb_spec (range_length (mkRange a0 b0 s0)) 0) as [L|N0];
    cbn [andb] in Hc.
  - destruct (_ || _) eqn:G; injection Hc as <- <- <-.
    + repeat split; try reflexivity; vm_compute; discriminate.
    + split; [assumption|split; [assumption|]].
      intros <-. exfalso.
      destruct (Z.ltb_spec 0 s0), (Z.ltb_spec s0 0), (Z.leb_spec a0 a0);
        simpl in G; try discriminate; lia.
  - injection Hc as <- <- <-.
    split; [assumption|split; [assumption|]].
    intros <-. exfalso. apply N0. apply range_length_zero_iff; lia.
Qed.

Lemma Slice_new_invariant_witness :
  range_length (mkRange 4 1 2) <> 1 /\
  range_length (mkRange 4 1 2) <= maxsize /\
  (4 = 1 -> 4 = 0 /\ 2 = 1).
Proof.
  apply (Slice_new_invariant (VInt 4) (VInt 1) (VInt 2) w0
           (mkObject 0 Slice [Some 4; Some 1; Some 2]));
    reflexivity.
Defined.

(** X10. Past the test [step == 0], coercion is all the constructor sees
    of its arguments: when the step does not compare equal to [0] and
    converts to a nonzero integer, the constructor returns the same value
    on integer-like arguments as on the integers [operator.index] gives
    for them. *)
Theorem Slice_new_coerced
  (start stop step : value) (a b : option Z) (s : Z) (w : world) :
  as_endpoint start = Some a ->
  as_endpoint stop = Some b ->
  as_index (default_step step) = Some s ->
  eq_zero (default_step step) = Ok false ->
  s <> 0 ->
  result (Slice_new start stop step) w =
  result (Slice_new (field_value a) (field_value b) (VInt s)) w.
Proof.
  unfold default_step. intros Ha Hb Hst Hz Hs.
  pose proof (Slice_new_run start stop step w) as R; cbv zeta in R.
  rewrite Ha, Hb, Hst, Hz in R.
  destruct R as (R & _). rewrite R.
  symmetry. apply Slice_new_fields, Hs.
Qed.

Lemma Slice_new_coerced_witness :
  result (Slice_new (VIndexable 2 (Ok false)) VNone (VIndexable (-1) (Ok false))) w0 =
  result (Slice_new (field_value (Some 2)) (field_value None) (VInt (-1))) w0.
Proof.
  apply (Slice_new_coerced (VIndexable 2 (Ok false)) VNone (VIndexable (-1) (Ok false)));
    try reflexivity. lia.
Defined.

(** ** Returned values against indexing *)

(** X11. A returned [Slice] selects what the arguments select: on every
    axis, the raw slice of the value constructed and the raw slice of the
    coerced arguments pick the same positions, in the same order. *)
Theorem Slice_new_preserves_positions
  (start stop step : value) (a b : option Z) (s : Z) (w : world) (o : object) :
  as_endpoint start = Some a ->
  as_endpoint stop = Some b ->
  as_index (default_step step) = Some s ->
  result (Slice_new start stop step) w = Ok o ->
  class_of o = Slice ->
  exists a' b' s',
    Slice_raw o = Some (a', b', Some s') /\
    forall n, slice_positions n a' b' s' = slice_positions n a b s.
Proof.
  unfold default_step. intros Ha Hb Hst Hok Hcls.
  destruct (Slice_new_Ok start stop step w o Hok)
    as (a0 & b0 & s0 & Ha0 & Hb0 & Hs0 & _ & Hc & _).
  unfold default_step in Hs0.
  rewrite Ha in Ha0; rewrite Hb in Hb0; rewrite Hst in Hs0.
  injection Ha0 as <-; injection Hb0 as <-; injection Hs0 as <-.
  rewrite Hcls in Hc. unfold Slice_raw.
  unfold canonical in Hc.
  destruct a as [a|], b as [b|];
    try (injection Hc as <-; do 3 eexists; split; reflexivity).
  cbv zeta in Hc.
  destruct (Z.eqb_spec s 0) as [|Hs]; [discriminate|].
  destruct (maxsize <? _); [discriminate|].
  destruct (_ =? 1); [discriminate|].
  destruct (Z.eqb_spec (range_length (mkRange a b s)) 0) as [L|_];
    cbn [andb] in Hc.
  - destruct (_ || _) eqn:G; injection Hc as <-.
    + exists (Some 0), (Some 0), 1. split; [reflexivity|].
      intros n.
      apply range_length_zero_iff in L; [|exact Hs].
      assert (a = b) as <-.
      { destruct (Z.ltb_spec 0 s), (Z.ltb_spec s 0), (Z.leb_spec a b),
          (Z.leb_spec b a); simpl in G; try discriminate; lia. }
      rewrite !equal_endpoints_select_nothing by lia. reflexivity.
    + do 3 eexists; split; reflexivity.
  - injection Hc as <-. do 3 eexists; split; reflexivity.
Qed.

Lemma Slice_new_preserves_positions_witness :
  exists a' b' s',
    Slice_raw (mkObject 0 Slice [Some 0; Some 0; Some 1]) = Some (a', b', Some s') /\
    forall n, slice_positions n a' b' s' = slice_positions n (Some 5) (Some 5) (-2).
Proof.
  apply (Slice_new_preserves_positions (VInt 5) (VIndexable 5 (Ok false)) (VInt (-2))
           (Some 5) (Some 5) (-2) w0);
    reflexivity.
Defined.

(** X12. With one endpoint negative and the other not, and a range of one
    element, [Slice] returns the [Integer] [start]; on every axis at least
    as long as the distance between the endpoints that integer is within
    bounds, while the raw slice selects nothing. *)
Theorem Slice_new_wraparound (a b s n : Z) (w : world) :
  s <> 0 ->
  range_length (mkRange a b s) = 1 ->
  a < 0 <= b \/ b < 0 <= a ->
  Z.abs (b - a) <= n ->
  result (Slice_new (VInt a) (VInt b) (VInt s)) w =
    Ok (mkObject (next_id w) Integer [Some a]) /\
  integer_position n a = Some (if 0 <=? a then a else a + n) /\
  slice_positions n (Some a) (Some b) s = [].
Proof.
  intros Hs L Hmix Hn.
  split; [|split].
  - rewrite Slice_new_explicit by exact Hs.
    rewrite canonical_short by lia. rewrite L. reflexivity.
  - unfold integer_position.
    destruct (Z.leb_spec (- n) a), (Z.ltb_spec a n); try lia. reflexivity.
  - apply range_length_one_iff in L; [|exact Hs].
    unfold slice_positions. apply elements_zero.
    unfold slice_indices, adjust_endpoint.
    apply range_length_zero_iff; [exact Hs|].
    destruct (Z.ltb_spec s 0), (Z.ltb_spec a 0), (Z.ltb_spec b 0); lia.
Qed.

Lemma Slice_new_wraparound_witness :
  result (Slice_new (VInt 0) (VInt (-1)) (VInt (-1))) w0 =
    Ok (mkObject (next_id w0) Integer [Some 0]) /\
  integer_position 4 0 = Some (if 0 <=? 0 then 0 else 0 + 4) /\
  slice_positions 4 (Some 0) (Some (-1)) (-1) = [].
Proof.
  apply (Slice_new_wraparound 0 (-1) (-1) 4 w0); try lia; reflexivity.
Defined.

(** ** Hashing against equality *)

Section HashEq.

Variable hash_tuple : list (option Z) -> Z.

(** X13. Two successive constructions from the same arguments, when they
    succeed, give values of the same class with the same [args] and the
    same hash, which nevertheless do not compare equal. *)
Theorem Slice_new_same_hash_not_equal
  (start stop step : value) (w : world) (o1 o2 : object) :
  result (Slice_new start stop step) w = Ok o1 ->
  result (Slice_new start stop step) (final (Slice_new start stop step) w) = Ok o2 ->
  class_of o1 = class_of o2 /\
  args o1 = args o2 /\
  NDIndex_hash hash_tuple o1 = NDIndex_hash hash_tuple o2 /\
  py_eq o1 o2 = false.
Proof.
  intros H1 H2.
  destruct (Slice_new_twice start stop step w o1 o2 H1 H2) as (Hc & Ha & He).
  repeat split; try assumption.
  unfold NDIndex_hash. rewrite Ha. reflexivity.
Qed.

End HashEq.

Lemma Slice_new_same_hash_not_equal_witness :
  class_of (mkObject 0 Slice [None; Some 3; Some 1]) =
    class_of (mkObject 1 Slice [None; Some 3; Some 1]) /\
  args (mkObject 0 Slice [None; Some 3; Some 1]) =
    args (mkObject 1 Slice [None; Some 3; Some 1]) /\
  NDIndex_hash (fun t => Z.of_nat (List.length t)) (mkObject 0 Slice [None; Some 3; Some 1]) =
    NDIndex_hash (fun t => Z.of_nat (List.length t)) (mkObject 1 Slice [None; Some 3; Some 1]) /\
  py_eq (mkObject 0 Slice [None; Some 3; Some 1])
        (mkObject 1 Slice [None; Some 3; Some 1]) = false.
Proof.
  apply (Slice_new_same_hash_not_equal (fun t => Z.of_nat (List.length t))
           VNone (VInt 3) VNone w0);
    reflexivity.
Defined.

(** ** The calls to [operator.index] *)

Lemma index_unless_None_exact (v : value) (w : world) :
  index_unless_None v w =
  (match as_endpoint v with Some a => Ok a | None => Raise BadIndex end,
   mkWorld (next_id w) (coerced w ++ (if is_None v then [] else [v]))).
Proof. destruct v, w; simpl; rewrite ?app_nil_r; reflexivity. Qed.

Lemma index_exact (v : value) (w : world) :
  index v w =
  (match as_index v with Some z => Ok z | None => Raise BadIndex end,
   mkWorld (next_id w) (coerced w ++ [v])).
Proof. destruct v; reflexivity. Qed.

Lemma Slice_new_tail_exact (start stop : option Z) (s : Z) (w : world) :
  coerced
    (snd (match start, stop with
          | Some a, Some b =>
              r <- range a b s ;;
              n <- len r ;;
              let '(start', stop', step') :=
                if (n =? 0) &&
                   (((0 <? s) && (a <=? b)) || ((s <? 0) && (b <=? a)))
                then (Some 0, Some 0, 1)
                else (start, stop, s) in
              n <- len r ;;
              if n =? 1 then
                (r0 <- getitem r 0 ;; Integer_new (VInt r0))
              else
                NDIndex_new Slice [start'; stop'; Some step']
          | _, _ => NDIndex_new Slice [start; stop; Some s]
          end w)) =
  coerced w ++ recoerced (object_of (next_id w) (canonical start stop s)).
Proof.
  unfold canonical.
  destruct start as [a|], stop as [b|];
    try (simpl; rewrite app_nil_r; reflexivity).
  unfold bind, range, len, ret, raise.
  destruct (s =? 0).
  { simpl. rewrite app_nil_r. reflexivity. }
  cbv zeta.
  destruct (maxsize <? range_length (mkRange a b s)).
  { simpl. rewrite app_nil_r. reflexivity. }
  destruct (Z.eqb_spec (range_length (mkRange a b s)) 1) as [E1|N1].
  - unfold getitem, Integer_new, bind, index, NDIndex_new, ret.
    rewrite E1.
    destruct ((1 =? 0) && _); cbn; rewrite Z.add_0_r; reflexivity.
  - destruct ((range_length (mkRange a b s) =? 0) && _);
      simpl; rewrite app_nil_r; reflexivity.
Qed.

(** X14. Every call of [operator.index] a construction makes: none unless
    the test [step == 0] is false; then one on each argument that is not
    [None], in the order [start], [stop], [step], stopping at the first
    that fails, and one more, on the integer [start], when an [Integer]
    is returned. *)
Theorem Slice_new_coercion_log (start stop step : value) (w : world) :
  coerced (final (Slice_new start stop step) w) =
  coerced w ++
  match eq_zero (default_step step) with
  | Ok false =>
      until_failure (coercions start stop step) ++
      recoerced (result (Slice_new start stop step) w)
  | _ => []
  end.
Proof.
  pose proof (Slice_new_run start stop step w) as R; cbv zeta in R.
  unfold coercions, default_step in *.
  set (st := if is_None step then VInt 1 else step) in *.
  remember (result (Slice_new start stop step) w) as res eqn:Eres in *.
  clear Eres.
  destruct (eq_zero st) as [[|]|e0] eqn:Ez;
    [unfold final; rewrite R; simpl; rewrite app_nil_r; reflexivity| |
     unfold final; rewrite R; simpl; rewrite app_nil_r; reflexivity].
  unfold final, Slice_new. fold st.
  rewrite bind_run. unfold test_eq_zero. rewrite Ez. cbv beta iota.
  rewrite bind_run, index_unless_None_exact.
  destruct (as_endpoint start) as [a|] eqn:Ea.
  2:{ destruct R as [-> _]. cbn [snd coerced recoerced].
      destruct start; try discriminate; reflexivity. }
  rewrite bind_run, index_unless_None_exact. cbn [next_id coerced].
  destruct (as_endpoint stop) as [b|] eqn:Eb.
  2:{ destruct R as [-> _]. cbn [snd coerced recoerced].
      destruct start, stop; try discriminate; cbn;
        rewrite <- ?app_assoc, ?app_nil_r; reflexivity. }
  rewrite bind_run, index_exact. cbn [next_id coerced].
  destruct (as_index st) as [s|] eqn:Es.
  2:{ destruct R as [-> _]. cbn [snd coerced recoerced].
      destruct start, stop; try discriminate; cbn; rewrite ?Es;
        rewrite <- ?app_assoc, ?app_nil_r; reflexivity. }
  destruct R as (-> & _).
  rewrite Slice_new_tail_exact. cbn [next_id coerced].
  destruct start, stop; try discriminate; cbn; rewrite ?Es;
    rewrite <- ?app_assoc, ?app_nil_r; reflexivity.
Qed.

(** ** Out of bounds *)

(** X15. A returned [Integer] can be out of bounds where the raw slice
    still selects a position, because slice endpoints are clamped: with
    [0 <= stop], [stop + 1 < n <= start] the slice selects the last
    position, and with [start < -n < stop < 0] it selects the first. *)
Theorem Slice_new_clamped (a b s n : Z) (w : world) :
  s <> 0 ->
  range_length (mkRange a b s) = 1 ->
  (0 <= b /\ b + 1 < n <= a) \/ (a < - n /\ - n < b < 0) ->
  result (Slice_new (VInt a) (VInt b) (VInt s)) w =
    Ok (mkObject (next_id w) Integer [Some a]) /\
  integer_position n a = None /\
  slice_positions n (Some a) (Some b) s = [if 0 <=? a then n - 1 else 0].
Proof.
  intros Hs L Hcase.
  split; [|split].
  - rewrite Slice_new_explicit by exact Hs.
    rewrite canonical_short by lia. rewrite L. reflexivity.
  - unfold integer_position.
    destruct (Z.leb_spec (- n) a), (Z.ltb_spec a n); try lia; reflexivity.
  - apply range_length_one_iff in L; [|exact Hs].
    unfold slice_positions.
    assert (E : range_length (slice_indices n (Some a) (Some b) s) = 1 /\
                r_start (slice_indices n (Some a) (Some b) s) =
                (if 0 <=? a then n - 1 else 0)).
    { unfold slice_indices, adjust_endpoint. split.
      - apply range_length_one_iff; [exact Hs|].
        destruct (Z.ltb_spec s 0), (Z.ltb_spec a 0), (Z.ltb_spec b 0); lia.
      - cbn [r_start].
        destruct (Z.leb_spec 0 a), (Z.ltb_spec s 0), (Z.ltb_spec a 0); lia. }
    destruct E as [E1 E2].
    rewrite elements_one by exact E1. rewrite E2. reflexivity.
Qed.

Lemma Slice_new_clamped_witness :
  result (Slice_new (VInt 5) (VInt 0) (VInt (-5))) w0 =
    Ok (mkObject (next_id w0) Integer [Some 5]) /\
  integer_position 3 5 = None /\
  slice_positions 3 (Some 5) (Some 0) (-5) = [if 0 <=? 5 then 3 - 1 else 0].
Proof.
  apply (Slice_new_clamped 5 0 (-5) 3 w0); [lia | reflexivity | lia].
Defined.
